(** * The HoB Tools service worker (service-worker.js)

    A shallow embedding of the worker's three event handlers
    (install, activate, fetch) over an explicit model of the browser
    objects they call: the cache registry ([caches]), a named cache,
    [fetch], [Response] objects with their single-use bodies, and the
    outcome of the task handed to [event.waitUntil] / [event.respondWith].

    Asynchronous code is run to completion: [await e] is monadic bind,
    a rejected promise is a thrown exception, and a promise that the code
    does not await is started with [spawn], which keeps its effects and
    drops its result. *)

From Stdlib Require Import PrimFloat ZArith.
From stdpp Require Import base strings gmap sets list.

#[local] Set Warnings "-register-all".

(** ** Values *)

(** The values [JSON.parse] can produce. An object is kept as the list of
    its own properties in enumeration order, which is the order
    [Object.values] uses. A string is a sequence of code units. *)
Inductive json : Type :=
  | JNull
  | JBool (b : bool)
  | JNum (x : float)
  | JStr (s : string)
  | JArr (items : list json)
  | JObj (props : list (string * json)).

(** [Boolean(v)], the callback of [.filter(Boolean)]: [null], [false],
    [0], [-0], [NaN] and the empty string are falsy; arrays and objects
    are truthy. *)
Definition ToBoolean (v : json) : bool :=
  match v with
  | JNull => false
  | JBool b => b
  | JNum x => negb (PrimFloat.is_zero x || PrimFloat.is_nan x)
  | JStr s => negb (bool_decide (s = ""))
  | JArr _ | JObj _ => true
  end.

(** Truthiness of a value that may be [undefined]. *)
Definition truthy (v : option json) : bool :=
  match v with Some v => ToBoolean v | None => false end.

(** [o.name] for a JSON value [o]: an own property of an object;
    [undefined] on arrays, strings, numbers and booleans for a name that
    is neither an index nor [length] (the worker only reads [files]).
    Reading a property of [null] throws, the caller guards against it. *)
Fixpoint assoc (name : string) (props : list (string * json)) : option json :=
  match props with
  | [] => None
  | (k, v) :: rest => if bool_decide (k = name) then Some v else assoc name rest
  end.

Definition get_prop (o : json) (name : string) : option json :=
  match o with
  | JObj props => assoc name props
  | _ => None
  end.

Fixpoint code_units (s : string) : list json :=
  match s with
  | EmptyString => []
  | String c rest => JStr (String c EmptyString) :: code_units rest
  end.

(** [Object.values(v)] for a truthy [v]: the property values of an
    object, the elements of an array, the one-unit strings of a string,
    nothing for a number or a boolean. *)
Definition Object_values (v : json) : list json :=
  match v with
  | JObj props => map snd props
  | JArr items => items
  | JStr s => code_units s
  | JNull | JBool _ | JNum _ => []
  end.

(** ** Requests and responses *)

Record Request := mkRequest {
  method : string;
  url : string;
  mode : string;
  destination : string;
  cache_mode : string;
}.

(** [new Request(input, init)] for a string input: a GET request. *)
Definition request_of (input : string) (cache : string) : Request :=
  {| method := "GET"; url := input; mode := "cors"; destination := "";
     cache_mode := cache |}.

Inductive ResponseType :=
  | Basic | Cors | Default | Error | Opaque | OpaqueRedirect.

#[global] Instance ResponseType_eq_dec : EqDecision ResponseType.
Proof. solve_decision. Defined.

(** What a response carries: the part that is stored in a cache. *)
Record Payload := mkPayload {
  status : Z;
  type : ResponseType;
  body : string;
}.

#[global] Instance Payload_eq_dec : EqDecision Payload.
Proof. solve_decision. Defined.

(** A [Response] object: an identity and a payload. Whether its body has
    been read is kept in the state, by identity. *)
Record Response := mkResponse {
  rid : nat;
  payload : Payload;
}.

(** [response.ok]. *)
Definition ok (r : Payload) : bool :=
  ((200 <=? status r) && (status r <=? 299))%Z.

(** [Response.error()]: type [error], status 0, no body. *)
Definition network_error : Payload :=
  {| status := 0; type := Error; body := "" |}.

(** What a rejected promise or a [throw] carries. *)
Inductive exn :=
  | TypeError (msg : string)
  | SyntaxError
  | StorageError.

(** ** The platform *)

(** What the browser and the network decide. A cache is keyed by request
    URL, written as the worker writes it. *)
Record Platform := mkPlatform {
  (** the network: [None] when the fetch promise rejects *)
  network : Request → option Payload;
  (** [JSON.parse] on a response body: [None] for a syntax error *)
  JSON_parse : string → option json;
  (** [String(x)] for a number *)
  Number_toString : float → string;
  (** whether the cache accepts a [put] (quota, [Vary: *], ...) *)
  put_accepted : string → Payload → bool;
  (** whether the cache accepts the batch of an [addAll] *)
  batch_accepted : list string → bool;
}.

(** The calls the worker makes on the platform, in the order it makes
    them. *)
Inductive Event :=
  | EvFetch (r : Request)
  | EvOpen (name : string)
  | EvMatch (name key : string)
  | EvPut (name key : string) (r : Response)
  | EvAddAll (name : string) (urls : list string)
  | EvKeys
  | EvDelete (name : string)
  | EvSkipWaiting
  | EvClaim.

(** The cache registry, the identities of the responses whose body has
    been read, the next identity, and the calls made so far. *)
Record State := mkState {
  caches : gmap string (gmap string Payload);
  used : gset nat;
  next : nat;
  log : list Event;
}.

Definition initial : State :=
  {| caches := ∅; used := ∅; next := 0; log := [] |}.

(** ** Tasks *)

(** How an awaited promise settles. *)
Inductive Outcome (A : Type) :=
  | Returned (a : A)
  | Thrown (e : exn).
Arguments Returned {A} a.
Arguments Thrown {A} e.

Definition Task (A : Type) : Type := State → Outcome A * State.

#[global] Instance Task_ret : MRet Task := λ A a σ, (Returned a, σ).
#[global] Instance Task_bind : MBind Task := λ A B f m σ,
  match m σ with
  | (Returned a, σ') => f a σ'
  | (Thrown e, σ') => (Thrown e, σ')
  end.
#[global] Instance Task_throw : MThrow exn Task := λ A e σ, (Thrown e, σ).

(** [try { m } catch (err) { h }] *)
Definition try_catch {A} (m : Task A) (h : exn → Task A) : Task A := λ σ,
  match m σ with
  | (Returned a, σ') => (Returned a, σ')
  | (Thrown e, σ') => h e σ'
  end.

(** A promise that is started and not awaited. *)
Definition spawn {A} (m : Task A) : Task unit := λ σ,
  (Returned tt, snd (m σ)).

Definition get : Task State := λ σ, (Returned σ, σ).
Definition modify (f : State → State) : Task unit := λ σ, (Returned tt, f σ).
Definition emit (e : Event) : Task unit :=
  modify (λ σ, {| caches := caches σ; used := used σ; next := next σ;
                  log := log σ ++ [e] |}).

(** [String(v)], the conversion a cache applies to a request given as a
    value rather than as a [Request] object. An array joins its elements
    with commas, [null] elements giving the empty string. *)
Fixpoint ToString (P : Platform) (v : json) : string :=
  match v with
  | JNull => "null"
  | JBool true => "true"
  | JBool false => "false"
  | JNum x => Number_toString P x
  | JStr s => s
  | JArr items =>
      (fix join (l : list json) : string :=
         match l with
         | [] => ""
         | x :: rest =>
             let sx := match x with JNull => "" | _ => ToString P x end in
             match rest with
             | [] => sx
             | _ :: _ => sx +:+ "," +:+ join rest
             end
         end) items
  | JObj _ => "[object Object]"
  end.

(** ** Platform operations *)

Section Operations.
Context (P : Platform).

(** A new [Response] object, with an unread body. *)
Definition alloc (p : Payload) : Task Response := λ σ,
  (Returned {| rid := next σ; payload := p |},
   {| caches := caches σ; used := used σ; next := S (next σ);
      log := log σ |}).

(** [fetch(request)] *)
Definition fetch (r : Request) : Task Response :=
  emit (EvFetch r);;
  match network P r with
  | Some p => alloc p
  | None => mthrow (TypeError "Failed to fetch")
  end.

(** [Response.error()] *)
Definition Response_error : Task Response := alloc network_error.

(** Reading a body marks it used; a used body cannot be read again. *)
Definition consume (r : Response) : Task unit :=
  σ ← get;
  if bool_decide (rid r ∈ used σ)
  then mthrow (TypeError "body stream already read")
  else modify (λ σ, {| caches := caches σ; used := {[rid r]} ∪ used σ;
                       next := next σ; log := log σ |}).

(** [response.clone()] *)
Definition clone (r : Response) : Task Response :=
  σ ← get;
  if bool_decide (rid r ∈ used σ)
  then mthrow (TypeError "Response body is already used")
  else alloc (payload r).

(** [response.json()] *)
Definition Response_json (r : Response) : Task json :=
  consume r;;
  match JSON_parse P (body (payload r)) with
  | Some v => mret v
  | None => mthrow SyntaxError
  end.

(** An update of the cache registry. *)
Definition set_caches (f : gmap string (gmap string Payload) →
                           gmap string (gmap string Payload)) : Task unit :=
  modify (λ σ, {| caches := f (caches σ); used := used σ; next := next σ;
                  log := log σ |}).

(** The entries of the cache called [name]; none when there is no such
    cache. *)
Definition entries (name : string) (σ : State) : gmap string Payload :=
  default ∅ (caches σ !! name).

(** The registry once the cache called [name] has been opened: it is
    created, empty, when it does not exist. *)
Definition opened (name : string) (cs : gmap string (gmap string Payload))
  : gmap string (gmap string Payload) :=
  match cs !! name with
  | Some _ => cs
  | None => <[name := ∅]> cs
  end.

(** [caches.open(name)]. The cache object it resolves to is referred to
    by its name. *)
Definition caches_open (name : string) : Task string :=
  emit (EvOpen name);;
  set_caches (opened name);;
  mret name.

(** [cache.match(request)]: a new [Response] for the stored entry, or
    [undefined]. *)
Definition cache_match (cache key : string) : Task (option Response) :=
  emit (EvMatch cache key);;
  σ ← get;
  match entries cache σ !! key with
  | Some p => r ← alloc p; mret (Some r)
  | None => mret None
  end.

(** [cache.put(request, response)]: reads the body of [response] and
    stores it under the request. *)
Definition cache_put (cache key : string) (r : Response) : Task unit :=
  emit (EvPut cache key r);;
  consume r;;
  if put_accepted P key (payload r)
  then σ ← get;
       set_caches (<[cache := <[key := payload r]> (entries cache σ)]>)
  else mthrow StorageError.

(** The fetches of [cache.addAll]: every request has to resolve with an
    [ok] response. *)
Fixpoint fetch_all (keys : list string) : option (list (string * Payload)) :=
  match keys with
  | [] => Some []
  | k :: rest =>
      match network P (request_of k "default") with
      | Some p =>
          if ok p
          then match fetch_all rest with
               | Some l => Some ((k, p) :: l)
               | None => None
               end
          else None
      | None => None
      end
  end.

(** The writes of a batch, in order. *)
Definition put_all (l : list (string * Payload)) (m : gmap string Payload)
  : gmap string Payload :=
  foldl (λ m kp, <[kp.1 := kp.2]> m) m l.

(** [cache.addAll(requests)]: all entries are written, or none. *)
Definition cache_addAll (cache : string) (requests : list json) : Task unit :=
  let keys := map (ToString P) requests in
  emit (EvAddAll cache keys);;
  match fetch_all keys with
  | Some l =>
      if batch_accepted P keys
      then σ ← get;
           set_caches (<[cache := put_all l (entries cache σ)]>)
      else mthrow StorageError
  | None => mthrow (TypeError "Request failed")
  end.

(** [caches.keys()] *)
Definition caches_keys : Task (list string) :=
  emit EvKeys;;
  σ ← get;
  mret (map fst (map_to_list (caches σ))).

(** [caches.delete(name)]: resolves to whether the cache existed. *)
Definition caches_delete (name : string) : Task bool :=
  emit (EvDelete name);;
  σ ← get;
  set_caches (delete name);;
  mret (bool_decide (is_Some (caches σ !! name))).

(** [Promise.resolve()], in the position of a [caches.delete] that did
    not take place: its value, which [Promise.all] collects and the
    handler never reads, is given as [false]. *)
Definition Promise_resolve : Task bool := mret false.

(** [Promise.all(promises)]: the promises have all been started; the
    result rejects with the first rejection. *)
Fixpoint Promise_all {A} (ts : list (Task A)) : Task (list A) := λ σ,
  match ts with
  | [] => (Returned [], σ)
  | t :: rest =>
      let '(o, σ1) := t σ in
      let '(os, σ2) := Promise_all rest σ1 in
      (match o, os with
       | Returned a, Returned l => Returned (a :: l)
       | Thrown e, _ => Thrown e
       | Returned _, Thrown e => Thrown e
       end, σ2)
  end.

(** [self.skipWaiting()] and [self.clients.claim()] *)
Definition skipWaiting : Task unit := emit EvSkipWaiting.
Definition clients_claim : Task unit := emit EvClaim.

End Operations.

(** ** The worker *)

Definition CACHE_NAME : string := "hob-tools-v2".

Definition CORE_URLS : list string :=
  [ "/";
    "/index.html";
    "/manifest.json";
    "/favicon.ico";
    "/logo192.svg";
    "/logo512.svg" ].

(** What a fetch event ends with: the handler returned without calling
    [event.respondWith], or it called it with a promise that settled. *)
Inductive Handled :=
  | PassThrough
  | RespondWith (o : Outcome Response).

(** [event.respondWith(promise)] and [event.waitUntil(promise)] *)
Definition respondWith (t : Task Response) : Task Handled := λ σ,
  let '(o, σ') := t σ in (Returned (RespondWith o), σ').

Definition waitUntil (t : Task unit) : Task unit := t.

(** [found || alt] for a response that may be [undefined]. *)
Definition or_else (found : option Response) (alt : Task Response)
  : Task Response :=
  match found with
  | Some r => mret r
  | None => alt
  end.

Section Worker.
Context (P : Platform).

Definition precacheFromManifest (cache : string) : Task unit :=
  try_catch
    (res ← fetch P (request_of "/asset-manifest.json" "no-store");
     if negb (ok (payload res)) then mret tt
     else
       manifest ← Response_json P res;
       let files :=
         if ToBoolean manifest && truthy (get_prop manifest "files")
         then match get_prop manifest "files" with
              | Some fs => Object_values fs
              | None => []
              end
         else [] in
       let urls := filter (λ v, ToBoolean v = true)
                          (map JStr CORE_URLS ++ files) in
       cache_addAll P cache urls)
    (λ err,
       (* If manifest fetch fails, at least cache core URLs *)
       cache_addAll P cache (map JStr CORE_URLS)).

Definition oninstall : Task unit :=
  waitUntil
    (cache ← caches_open CACHE_NAME;
     precacheFromManifest cache;;
     (* Activate SW immediately *)
     skipWaiting).

Definition onactivate : Task unit :=
  waitUntil
    ((* Remove old caches *)
     keys ← caches_keys;
     Promise_all
       (map (λ key, if negb (bool_decide (key = CACHE_NAME))
                    then caches_delete key
                    else Promise_resolve) keys);;
     (* Take control of uncontrolled clients *)
     clients_claim).

Definition onfetch (request : Request) : Task Handled :=
  (* Only handle GET requests *)
  if negb (bool_decide (method request = "GET")) then mret PassThrough
  else if bool_decide (mode request = "navigate") then
    (* Handle SPA navigations: serve cached index.html as fallback *)
    respondWith
      (try_catch
         ((* Try network first to get latest page *)
          networkResponse ← fetch P request;
          mret networkResponse)
         (λ err,
            (* Offline: return cached index.html *)
            cache ← caches_open CACHE_NAME;
            cached ← cache_match cache "/index.html";
            or_else cached Response_error))
  else
    (* For other GET requests, use cache-first with runtime caching *)
    respondWith
      (cache ← caches_open CACHE_NAME;
       cached ← cache_match cache (url request);
       match cached with
       | Some hit => mret hit
       | None =>
           try_catch
             (response ← fetch P request;
              (* Only cache successful, basic (same-origin) responses;
                 a resolved fetch gives a Response object, so the
                 [response &&] test holds *)
              (if bool_decide (status (payload response) = 200%Z)
                  && bool_decide (type (payload response) = Basic)
               then copy ← clone response;
                    spawn (cache_put P cache (url request) copy)
               else mret tt);;
              mret response)
             (λ err,
                (* If network fails, try a core fallback for documents *)
                if bool_decide (destination request = "document")
                then fallback ← cache_match cache "/index.html";
                     or_else fallback Response_error
                else Response_error)
       end).

End Worker.

(** ** Vocabulary of the properties *)

(** Body identities are handed out in increasing order, so a body that
    has been read belongs to a response that already exists. *)
Definition fresh_ids (σ : State) : Prop :=
  ∀ i, i ∈ used σ → i < next σ.

(** A response the runtime cache keeps: status 200 and type [basic]. *)
Definition cacheable (p : Payload) : bool :=
  bool_decide (status p = 200%Z) && bool_decide (type p = Basic).

(** The names [caches.keys()] lists. *)
Definition names (cs : gmap string (gmap string Payload)) : list string :=
  map fst (map_to_list cs).

(** The names activation deletes: those that differ from [CACHE_NAME]. *)
Definition stale (keys : list string) : list string :=
  filter (λ key, key ≠ CACHE_NAME) keys.

(** The registry after the stores called [keys] have been deleted. *)
Definition delete_all (keys : list string)
    (cs : gmap string (gmap string Payload)) :=
  foldl (λ cs key, delete key cs) cs keys.

(** The request of [fetch('/asset-manifest.json', { cache: 'no-store' })]. *)
Definition manifest_request : Request :=
  request_of "/asset-manifest.json" "no-store".

(** The file paths a manifest lists: the values of its [files] field. *)
Definition listed_files (manifest : json) : list json :=
  match get_prop manifest "files" with
  | Some fs => Object_values fs
  | None => []
  end.

(** The URLs of the bulk insert: the core list, then the truthy values
    among the listed files, as the cache reads them. *)
Definition precache_urls (P : Platform) (manifest : json) : list string :=
  CORE_URLS ++
  map (ToString P) (filter (λ v, ToBoolean v = true) (listed_files manifest)).

(** Concrete platforms, states and requests, for the scenarios. *)

(** [{ files: { "main.js": "/static/main.abc123.js" } }] *)
Definition scenario_manifest : json :=
  JObj [("files", JObj [("main.js", JStr "/static/main.abc123.js")])].

(** A network on which every request is answered 200, same-origin, with
    a manifest that parses to [scenario_manifest]; the cache accepts
    every write. *)
Definition online : Platform := {|
  network := λ r, Some {| status := 200; type := Basic; body := url r |};
  JSON_parse := λ _, Some scenario_manifest;
  Number_toString := λ _, "0";
  put_accepted := λ _ _, true;
  batch_accepted := λ _, true;
|}.

(** The same, with the manifest endpoint answering HTTP 500. *)
Definition manifest_500 : Platform := {|
  network := λ r,
    if bool_decide (url r = "/asset-manifest.json")
    then Some {| status := 500; type := Basic; body := "" |}
    else Some {| status := 200; type := Basic; body := url r |};
  JSON_parse := λ _, None;
  Number_toString := λ _, "0";
  put_accepted := λ _ _, true;
  batch_accepted := λ _, true;
|}.

(** No network at all. *)
Definition offline : Platform := {|
  network := λ _, None;
  JSON_parse := λ _, None;
  Number_toString := λ _, "0";
  put_accepted := λ _ _, true;
  batch_accepted := λ _, true;
|}.

(** A stored copy of [/index.html]. *)
Definition root_document : Payload :=
  {| status := 200; type := Basic; body := "<!doctype html>" |}.

(** A state in which the current cache holds the root document. *)
Definition with_root : State :=
  {| caches := {[CACHE_NAME := {["/index.html" := root_document]}]};
     used := ∅; next := 0; log := [] |}.

(** A full-page load of [u]. *)
Definition navigation (u : string) : Request :=
  {| method := "GET"; url := u; mode := "navigate";
     destination := "document"; cache_mode := "default" |}.

(** A GET for [u] issued by a page, with destination [dest]. *)
Definition subresource (u dest : string) : Request :=
  {| method := "GET"; url := u; mode := "no-cors";
     destination := dest; cache_mode := "default" |}.

(** Events that leave every store as it is. *)
Definition reads_only (e : Event) : Prop :=
  match e with
  | EvPut _ _ _ | EvAddAll _ _ | EvDelete _ => False
  | _ => True
  end.

(** The platform [P] with another verdict on cache writes. *)
Definition with_put_accepted (P : Platform)
    (verdict : string → Payload → bool) : Platform :=
  {| network := network P; JSON_parse := JSON_parse P;
     Number_toString := Number_toString P;
     put_accepted := verdict; batch_accepted := batch_accepted P |}.

(** Further platforms and states, for the properties of the handlers
    beyond the claims. *)

(** The manifest endpoint cannot be reached; everything else loads. *)
Definition manifest_down : Platform := {|
  network := λ r,
    if bool_decide (url r = "/asset-manifest.json")
    then None
    else Some {| status := 200; type := Basic; body := url r |};
  JSON_parse := λ _, None;
  Number_toString := λ _, "0";
  put_accepted := λ _ _, true;
  batch_accepted := λ _, true;
|}.

(** The manifest endpoint answers 200 with a body that is not JSON. *)
Definition manifest_garbled : Platform := {|
  network := λ r, Some {| status := 200; type := Basic; body := url r |};
  JSON_parse := λ _, None;
  Number_toString := λ _, "0";
  put_accepted := λ _ _, true;
  batch_accepted := λ _, true;
|}.

(** The manifest lists [/static/main.abc123.js], which answers 404. *)
Definition listed_file_missing : Platform := {|
  network := λ r,
    if bool_decide (url r = "/static/main.abc123.js")
    then Some {| status := 404; type := Basic; body := "" |}
    else Some {| status := 200; type := Basic; body := url r |};
  JSON_parse := λ _, Some scenario_manifest;
  Number_toString := λ _, "0";
  put_accepted := λ _ _, true;
  batch_accepted := λ _, true;
|}.

(** Every request is answered with an opaque cross-origin response. *)
Definition cross_origin : Platform := {|
  network := λ r, Some {| status := 0; type := Opaque; body := "" |};
  JSON_parse := λ _, None;
  Number_toString := λ _, "0";
  put_accepted := λ _ _, true;
  batch_accepted := λ _, true;
|}.

(** A registry with two stores of earlier versions beside the current
    one. *)
Definition three_generations : State :=
  {| caches := {[ "hob-tools-v0" := ∅; "hob-tools-v1" := ∅;
                  CACHE_NAME := {["/index.html" := root_document]} ]};
     used := ∅; next := 0; log := [] |}.

(** The handler leaves [σ'] with the stores of [σ], except that the store
    called [cache] may have gained keys. *)
Definition grows_only (cache : string) (σ σ' : State) : Prop :=
  (∀ name, name ≠ cache → entries name σ' = entries name σ) ∧
  dom (entries cache σ) ⊆ dom (entries cache σ').

(** The calls the fetch handler has reason to make for [request]: it
    opens the current store, looks up the request or the root document
    there, fetches the request, writes under the request. *)
Definition call_for (request : Request) (e : Event) : Prop :=
  match e with
  | EvOpen name => name = CACHE_NAME
  | EvMatch name key =>
      name = CACHE_NAME ∧ (key = url request ∨ key = "/index.html")
  | EvFetch r => r = request
  | EvPut name key _ => name = CACHE_NAME ∧ key = url request
  | EvAddAll _ _ | EvKeys | EvDelete _ | EvSkipWaiting | EvClaim => False
  end.

(** The number of fetches and of cache writes among some calls. *)
Definition is_fetch (e : Event) : bool :=
  match e with EvFetch _ => true | _ => false end.

Definition is_put (e : Event) : bool :=
  match e with EvPut _ _ _ => true | _ => false end.

Definition fetches (events : list Event) : nat :=
  length (filter (λ e, is_fetch e = true) events).

Definition writes (events : list Event) : nat :=
  length (filter (λ e, is_put e = true) events).

(** * Properties *)

(** ** Running tasks *)

(** Unfolds a handler down to the state transformer it denotes. *)
Ltac run :=
  unfold onfetch, precacheFromManifest, oninstall, onactivate, waitUntil,
    respondWith, try_catch, spawn, or_else, fetch, Response_error, clone,
    consume, Response_json, cache_put, cache_addAll, cache_match,
    caches_open, caches_keys, caches_delete, skipWaiting, clients_claim,
    Promise_resolve, set_caches, alloc, emit, modify, get,
    mbind, mret, mthrow, Task_bind, Task_ret, Task_throw, entries;
  cbn [fst snd caches used next log rid payload].

Lemma fresh_ids_initial : fresh_ids initial.
Proof. intros i Hi. cbn in Hi. set_solver. Qed.

Lemma fresh_ids_next σ : fresh_ids σ → next σ ∉ used σ.
Proof. intros Hσ Hin. apply Hσ in Hin. lia. Qed.

Lemma lookup_opened name name' cs :
  default ∅ (opened name cs !! name') = default ∅ (cs !! name').
Proof.
  unfold opened. destruct (cs !! name) eqn:E; [done|].
  destruct (decide (name = name')) as [<-|Hne].
  - by rewrite lookup_insert_eq, E.
  - by rewrite lookup_insert_ne.
Qed.

Lemma entries_insert name c cs u n lg :
  entries name {| caches := <[name := c]> cs; used := u; next := n;
                  log := lg |} = c.
Proof. unfold entries. cbn. by rewrite lookup_insert_eq. Qed.

Lemma opened_present name cs c : cs !! name = Some c → opened name cs = cs.
Proof. intros E. unfold opened. by rewrite E. Qed.

Lemma opened_idemp name cs : opened name (opened name cs) = opened name cs.
Proof.
  unfold opened at 2 3. destruct (cs !! name) eqn:E.
  - by apply opened_present with g.
  - apply opened_present with ∅. apply lookup_insert_eq.
Qed.

(** The cache-first branch answers from the store. *)
Lemma onfetch_hit P request σ p :
  method request = "GET" → mode request ≠ "navigate" →
  entries CACHE_NAME σ !! url request = Some p →
  onfetch P request σ =
    (Returned (RespondWith (Returned {| rid := next σ; payload := p |})),
     {| caches := caches σ; used := used σ; next := S (next σ);
        log := log σ ++ [EvOpen CACHE_NAME;
                         EvMatch CACHE_NAME (url request)] |}).
Proof.
  intros Hm Hn Hhit. run.
  rewrite bool_decide_eq_true_2, bool_decide_eq_false_2 by done. cbn.
  unfold entries in Hhit. rewrite lookup_opened, Hhit.
  destruct (caches σ !! CACHE_NAME) as [c|] eqn:E; [|done].
  rewrite (opened_present _ _ _ E), <- app_assoc. done.
Qed.

(** The navigation branch: the network answer, else the stored root
    document, else [Response.error()]. *)
Lemma onfetch_navigate P request σ :
  method request = "GET" → mode request = "navigate" →
  onfetch P request σ =
    match network P request with
    | Some p =>
        (Returned (RespondWith (Returned {| rid := next σ; payload := p |})),
         {| caches := caches σ; used := used σ; next := S (next σ);
            log := log σ ++ [EvFetch request] |})
    | None =>
        (Returned (RespondWith (Returned
           {| rid := next σ;
              payload := default network_error
                           (entries CACHE_NAME σ !! "/index.html") |})),
         {| caches := opened CACHE_NAME (caches σ); used := used σ;
            next := S (next σ);
            log := log σ ++ [EvFetch request; EvOpen CACHE_NAME;
                             EvMatch CACHE_NAME "/index.html"] |})
    end.
Proof.
  intros Hm Hn. run.
  rewrite !bool_decide_eq_true_2 by done. cbn.
  destruct (network P request) as [p|]; cbn.
  - done.
  - rewrite lookup_opened.
    destruct (default ∅ (caches σ !! CACHE_NAME) !! "/index.html");
      cbn; by rewrite <- !app_assoc.
Qed.

(** The cache-first branch on a miss, when the network answers. *)
Lemma onfetch_miss_online P request σ p :
  method request = "GET" → mode request ≠ "navigate" →
  entries CACHE_NAME σ !! url request = None →
  network P request = Some p →
  fresh_ids σ →
  onfetch P request σ =
    (Returned (RespondWith (Returned {| rid := next σ; payload := p |})),
     if cacheable p then
       {| caches :=
            if put_accepted P (url request) p
            then <[CACHE_NAME := <[url request := p]> (entries CACHE_NAME σ)]>
                   (opened CACHE_NAME (caches σ))
            else opened CACHE_NAME (caches σ);
          used := {[S (next σ)]} ∪ used σ;
          next := S (S (next σ));
          log := log σ ++ [EvOpen CACHE_NAME;
                           EvMatch CACHE_NAME (url request);
                           EvFetch request;
                           EvPut CACHE_NAME (url request)
                             {| rid := S (next σ); payload := p |}] |}
     else
       {| caches := opened CACHE_NAME (caches σ); used := used σ;
          next := S (next σ);
          log := log σ ++ [EvOpen CACHE_NAME;
                           EvMatch CACHE_NAME (url request);
                           EvFetch request] |}).
Proof.
  intros Hm Hn Hmiss Hnet Hσ. run.
  rewrite bool_decide_eq_true_2, bool_decide_eq_false_2 by done. cbn.
  unfold entries in Hmiss. rewrite lookup_opened, Hmiss, Hnet. cbn.
  unfold cacheable.
  destruct (bool_decide (status p = 200%Z) && bool_decide (type p = Basic));
    cbn; [|by rewrite <- !app_assoc].
  rewrite (bool_decide_eq_false_2 (next σ ∈ used σ))
    by (by apply fresh_ids_next). cbn.
  run.
  rewrite (bool_decide_eq_false_2 (S (next σ) ∈ used σ))
    by (intros Hin; apply Hσ in Hin; lia). cbn.
  destruct (put_accepted P (url request) p); cbn;
    by rewrite ?lookup_opened, <- !app_assoc.
Qed.

(** The cache-first branch on a miss, when the fetch rejects. *)
Lemma onfetch_miss_offline P request σ :
  method request = "GET" → mode request ≠ "navigate" →
  entries CACHE_NAME σ !! url request = None →
  network P request = None →
  onfetch P request σ =
    if bool_decide (destination request = "document") then
      (Returned (RespondWith (Returned
         {| rid := next σ;
            payload := default network_error
                         (entries CACHE_NAME σ !! "/index.html") |})),
       {| caches := opened CACHE_NAME (caches σ); used := used σ;
          next := S (next σ);
          log := log σ ++ [EvOpen CACHE_NAME;
                           EvMatch CACHE_NAME (url request);
                           EvFetch request;
                           EvMatch CACHE_NAME "/index.html"] |})
    else
      (Returned (RespondWith (Returned
         {| rid := next σ; payload := network_error |})),
       {| caches := opened CACHE_NAME (caches σ); used := used σ;
          next := S (next σ);
          log := log σ ++ [EvOpen CACHE_NAME;
                           EvMatch CACHE_NAME (url request);
                           EvFetch request] |}).
Proof.
  intros Hm Hn Hmiss Hnet. run.
  rewrite bool_decide_eq_true_2, bool_decide_eq_false_2 by done. cbn.
  unfold entries in Hmiss. rewrite lookup_opened, Hmiss, Hnet. cbn.
  destruct (bool_decide (destination request = "document")); cbn.
  - rewrite lookup_opened.
    destruct (default ∅ (caches σ !! CACHE_NAME) !! "/index.html");
      cbn; by rewrite <- !app_assoc.
  - by rewrite <- !app_assoc.
Qed.

(** ** Activation *)

Lemma elem_of_names cs name : name ∈ names cs ↔ is_Some (cs !! name).
Proof.
  unfold names. rewrite list_elem_of_fmap. split.
  - intros [[k c] [-> Hin]]. apply elem_of_map_to_list in Hin. by exists c.
  - intros [c Hc]. exists (name, c). split; [done|].
    by apply elem_of_map_to_list.
Qed.

Lemma lookup_delete_all keys cs name :
  delete_all keys cs !! name =
    if bool_decide (name ∈ keys) then None else cs !! name.
Proof.
  revert cs. induction keys as [|key keys IH]; intros cs.
  - cbn. rewrite bool_decide_eq_false_2; [done | apply not_elem_of_nil].
  - change (delete_all (key :: keys) cs)
      with (delete_all keys (delete key cs)).
    rewrite IH. destruct (decide (name = key)) as [->|Hne].
    + rewrite (bool_decide_eq_true_2 (key ∈ key :: keys)) by left.
      case_bool_decide; [done | apply lookup_delete_eq].
    + rewrite lookup_delete_ne by done.
      repeat case_bool_decide; try done.
      * exfalso. by eauto using list_elem_of_further.
      * exfalso. match goal with H : _ ∈ _ :: _ |- _ =>
          apply elem_of_cons in H as [?|?] end; done.
Qed.

Lemma elem_of_stale keys name :
  name ∈ stale keys ↔ name ≠ CACHE_NAME ∧ name ∈ keys.
Proof. unfold stale. by rewrite list_elem_of_filter. Qed.

(** The deletions of [Promise.all(keys.map(...))], in the order of
    [keys]. *)
Lemma run_deletions keys σ :
  ∃ results,
    Promise_all
      (map (λ key, if negb (bool_decide (key = CACHE_NAME))
                   then caches_delete key
                   else Promise_resolve) keys) σ =
    (Returned results,
     {| caches := delete_all (stale keys) (caches σ); used := used σ;
        next := next σ; log := log σ ++ map EvDelete (stale keys) |}).
Proof.
  revert σ. induction keys as [|key keys IH]; intros σ.
  - exists []. cbn. rewrite app_nil_r. by destruct σ.
  - unfold stale. rewrite filter_cons. cbn [map Promise_all].
    case_decide as Hkey.
    + rewrite bool_decide_eq_false_2 by done. cbn [negb]. run.
      edestruct IH as [results ->]. eexists. cbn.
      by rewrite <- app_assoc.
    + rewrite bool_decide_eq_true_2 by done. cbn [negb]. run.
      edestruct IH as [results ->]. eexists. done.
Qed.

Lemma onactivate_run σ :
  onactivate σ =
    (Returned tt,
     {| caches := delete_all (stale (names (caches σ))) (caches σ);
        used := used σ; next := next σ;
        log := log σ ++ [EvKeys] ++
               map EvDelete (stale (names (caches σ))) ++ [EvClaim] |}).
Proof.
  unfold onactivate, waitUntil, caches_keys.
  unfold mbind, Task_bind, mret, Task_ret, emit, modify, get, clients_claim.
  cbn [caches used next log].
  edestruct run_deletions as [results ->]. unfold emit, modify. cbn.
  unfold names. by rewrite <- !app_assoc.
Qed.

(** What is left of the registry: the current cache, if there was one. *)
Lemma lookup_activated cs name :
  delete_all (stale (names cs)) cs !! name =
    if bool_decide (name = CACHE_NAME) then cs !! name else None.
Proof.
  rewrite lookup_delete_all. repeat case_bool_decide; try done.
  - exfalso. match goal with H : _ ∈ stale _ |- _ =>
      apply elem_of_stale in H as [? _] end. done.
  - destruct (cs !! name) as [c|] eqn:E; [|done].
    exfalso. match goal with H : _ ∉ stale _ |- _ => apply H end.
    apply elem_of_stale. split; [done|]. apply elem_of_names. by exists c.
Qed.

Lemma stale_activated cs :
  stale (names (delete_all (stale (names cs)) cs)) = [].
Proof.
  destruct (stale _) as [|name rest] eqn:E; [done|]. exfalso.
  assert (name ∈ stale (names (delete_all (stale (names cs)) cs))) as Hin
    by (rewrite E; left).
  apply elem_of_stale in Hin as [Hne Hin].
  apply elem_of_names in Hin as [c Hc].
  rewrite lookup_activated, bool_decide_eq_false_2 in Hc by done. done.
Qed.

(** ** Installation *)

Lemma Object_values_falsy v : ToBoolean v = false → Object_values v = [].
Proof.
  destruct v as [|b|x|s|items|props]; cbn; try done.
  case_bool_decide; [by subst | done].
Qed.

(** The guard [manifest && manifest.files ? ... : []] only skips values
    that list nothing. *)
Lemma guarded_files manifest :
  (if ToBoolean manifest && truthy (get_prop manifest "files")
   then match get_prop manifest "files" with
        | Some fs => Object_values fs
        | None => []
        end
   else []) = listed_files manifest.
Proof.
  unfold listed_files.
  destruct (get_prop manifest "files") as [fs|] eqn:E; cbn.
  - destruct (ToBoolean manifest) eqn:Em; cbn.
    + destruct (ToBoolean fs) eqn:Ef; [done|].
      by rewrite Object_values_falsy.
    + destruct manifest; cbn in *; try done.
  - by destruct (ToBoolean manifest).
Qed.

Lemma precache_urls_eq P manifest :
  map (ToString P)
      (filter (λ v, ToBoolean v = true)
              (map JStr CORE_URLS ++ listed_files manifest)) =
  precache_urls P manifest.
Proof. by rewrite filter_app, map_app. Qed.

Lemma elem_of_precache_urls P manifest u :
  u ∈ precache_urls P manifest ↔
    u ∈ CORE_URLS ∨
    ∃ v, v ∈ listed_files manifest ∧ ToBoolean v = true ∧ ToString P v = u.
Proof.
  unfold precache_urls. rewrite elem_of_app, list_elem_of_fmap.
  split; (intros [?|(v & H1 & H2)]; [by left | right; exists v]).
  - apply list_elem_of_filter in H2 as [? ?]. by subst.
  - destruct H2 as [? <-]. split; [done|]. by apply list_elem_of_filter.
Qed.

Lemma fetch_all_keys P keys l : fetch_all P keys = Some l → l.*1 = keys.
Proof.
  revert l. induction keys as [|k keys IH]; intros l; cbn.
  - by intros [= <-].
  - destruct (network P (request_of k "default")) as [p|]; [|done].
    destruct (ok p); [|done].
    destruct (fetch_all P keys) as [l'|]; [|done].
    intros [= <-]. cbn. by rewrite (IH l').
Qed.

Lemma dom_put_all l (m : gmap string Payload) :
  dom (put_all l m) = dom m ∪ list_to_set l.*1.
Proof.
  revert m. induction l as [|[k p] l IH]; intros m.
  - cbn. by rewrite (right_id_L ∅ (∪)).
  - change (put_all ((k, p) :: l) m) with (put_all l (<[k := p]> m)).
    rewrite IH, dom_insert_L. cbn.
    by rewrite (comm_L (∪) {[k]} (dom m)), <- (assoc_L (∪)).
Qed.

(** A manifest answer that is not [ok]: the function returns at once. *)
Lemma precache_not_ok P cache σ p :
  network P manifest_request = Some p → ok p = false →
  precacheFromManifest P cache σ =
    (Returned tt,
     {| caches := caches σ; used := used σ; next := S (next σ);
        log := log σ ++ [EvFetch manifest_request] |}).
Proof.
  intros Hnet Hok. run. fold manifest_request. rewrite Hnet. cbn.
  by rewrite Hok.
Qed.

(** A manifest fetch that rejects: the handler inserts the core list. *)
Lemma precache_rejected P cache σ :
  network P manifest_request = None →
  precacheFromManifest P cache σ =
    cache_addAll P cache (map JStr CORE_URLS)
      {| caches := caches σ; used := used σ; next := next σ;
         log := log σ ++ [EvFetch manifest_request] |}.
Proof.
  intros Hnet. unfold precacheFromManifest, try_catch, fetch.
  unfold mbind, Task_bind, emit, modify. fold manifest_request.
  by rewrite Hnet.
Qed.

(** A manifest that arrives and parses, and a bulk insert the cache
    accepts. *)
Lemma precache_manifest P cache σ p manifest l :
  network P manifest_request = Some p → ok p = true →
  JSON_parse P (body p) = Some manifest →
  fresh_ids σ →
  fetch_all P (precache_urls P manifest) = Some l →
  batch_accepted P (precache_urls P manifest) = true →
  precacheFromManifest P cache σ =
    (Returned tt,
     {| caches := <[cache := put_all l (entries cache σ)]> (caches σ);
        used := {[next σ]} ∪ used σ; next := S (next σ);
        log := log σ ++ [EvFetch manifest_request;
                         EvAddAll cache (precache_urls P manifest)] |}).
Proof.
  intros Hnet Hok Hparse Hσ Hall Hacc.
  unfold precacheFromManifest, try_catch, fetch, Response_json, consume.
  unfold mbind, Task_bind, mret, Task_ret, mthrow, Task_throw.
  unfold emit, modify, get, alloc. fold manifest_request.
  rewrite Hnet. cbn [payload rid used next log caches]. rewrite Hok.
  cbn [negb payload rid used next log caches].
  rewrite bool_decide_eq_false_2 by (by apply fresh_ids_next).
  cbn [payload rid used next log caches].
  rewrite Hparse, guarded_files.
  unfold cache_addAll. rewrite precache_urls_eq, Hall, Hacc.
  run. by rewrite <- !app_assoc.
Qed.

Lemma oninstall_manifest P σ p manifest l :
  network P manifest_request = Some p → ok p = true →
  JSON_parse P (body p) = Some manifest →
  fresh_ids σ →
  fetch_all P (precache_urls P manifest) = Some l →
  batch_accepted P (precache_urls P manifest) = true →
  oninstall P σ =
    (Returned tt,
     {| caches := <[CACHE_NAME := put_all l (entries CACHE_NAME σ)]>
                    (opened CACHE_NAME (caches σ));
        used := {[next σ]} ∪ used σ; next := S (next σ);
        log := log σ ++ [EvOpen CACHE_NAME; EvFetch manifest_request;
                         EvAddAll CACHE_NAME (precache_urls P manifest);
                         EvSkipWaiting] |}).
Proof.
  intros Hnet Hok Hparse Hσ Hall Hacc.
  unfold oninstall, waitUntil, caches_open, skipWaiting, set_caches.
  unfold mbind, Task_bind, mret, Task_ret, emit, modify.
  cbn [caches used next log].
  erewrite precache_manifest by done.
  unfold entries. cbn [caches used next log].
  by rewrite lookup_opened, <- !app_assoc.
Qed.

Lemma oninstall_not_ok P σ p :
  network P manifest_request = Some p → ok p = false →
  oninstall P σ =
    (Returned tt,
     {| caches := opened CACHE_NAME (caches σ); used := used σ;
        next := S (next σ);
        log := log σ ++ [EvOpen CACHE_NAME; EvFetch manifest_request;
                         EvSkipWaiting] |}).
Proof.
  intros Hnet Hok.
  unfold oninstall, waitUntil, caches_open, skipWaiting, set_caches.
  unfold mbind, Task_bind, mret, Task_ret, emit, modify.
  cbn [caches used next log].
  erewrite precache_not_ok by done.
  cbn [caches used next log]. by rewrite <- !app_assoc.
Qed.

(** What [cache.addAll] does, case by case. *)
Lemma cache_addAll_run P cache requests σ :
  cache_addAll P cache requests σ =
    let keys := map (ToString P) requests in
    let σ1 := {| caches := caches σ; used := used σ; next := next σ;
                 log := log σ ++ [EvAddAll cache keys] |} in
    match fetch_all P keys with
    | Some l =>
        if batch_accepted P keys
        then (Returned tt,
              {| caches := <[cache := put_all l (entries cache σ)]> (caches σ);
                 used := used σ; next := next σ;
                 log := log σ ++ [EvAddAll cache keys] |})
        else (Thrown StorageError, σ1)
    | None => (Thrown (TypeError "Request failed"), σ1)
    end.
Proof.
  unfold cache_addAll. cbn zeta.
  destruct (fetch_all P _); [|done].
  by destruct (batch_accepted P _).
Qed.

(** Once the manifest has arrived and parsed, what is left of
    [precacheFromManifest] is the bulk insert inside the [try]. *)
Lemma precache_parsed P cache σ p manifest :
  network P manifest_request = Some p → ok p = true →
  JSON_parse P (body p) = Some manifest →
  fresh_ids σ →
  precacheFromManifest P cache σ =
    try_catch
      (cache_addAll P cache
         (filter (λ v, ToBoolean v = true)
                 (map JStr CORE_URLS ++ listed_files manifest)))
      (λ err, cache_addAll P cache (map JStr CORE_URLS))
      {| caches := caches σ; used := {[next σ]} ∪ used σ;
         next := S (next σ);
         log := log σ ++ [EvFetch manifest_request] |}.
Proof.
  intros Hnet Hok Hparse Hσ.
  unfold precacheFromManifest, try_catch, fetch, Response_json, consume.
  unfold mbind, Task_bind, mret, Task_ret, mthrow, Task_throw.
  unfold emit, modify, get, alloc. fold manifest_request.
  rewrite Hnet. cbn [payload rid used next log caches]. rewrite Hok.
  cbn [negb payload rid used next log caches].
  rewrite bool_decide_eq_false_2 by (by apply fresh_ids_next).
  cbn [payload rid used next log caches].
  by rewrite Hparse, guarded_files.
Qed.

(** In every such run the bulk insert is asked for, with the same list,
    whatever becomes of it. *)
Lemma oninstall_asks_bulk_insert P σ p manifest :
  network P manifest_request = Some p → ok p = true →
  JSON_parse P (body p) = Some manifest →
  fresh_ids σ →
  ∃ rest,
    log (oninstall P σ).2 =
      log σ ++ [EvOpen CACHE_NAME; EvFetch manifest_request;
                EvAddAll CACHE_NAME (precache_urls P manifest)] ++ rest.
Proof.
  intros Hnet Hok Hparse Hσ.
  unfold oninstall, waitUntil, caches_open, skipWaiting, set_caches.
  unfold mbind, Task_bind, mret, Task_ret, emit, modify.
  cbn [caches used next log].
  erewrite precache_parsed by done.
  unfold try_catch. rewrite cache_addAll_run. cbn zeta.
  rewrite precache_urls_eq. cbn [caches used next log].
  assert (∀ σ1 : State, ∃ rest,
    log (let (o, σ') := cache_addAll P CACHE_NAME (map JStr CORE_URLS) σ1 in
         match o with
         | Returned _ =>
             (Returned tt,
              {| caches := caches σ'; used := used σ'; next := next σ';
                 log := log σ' ++ [EvSkipWaiting] |})
         | Thrown e => (Thrown e, σ')
         end).2 = log σ1 ++ rest) as Hfallback.
  { intros σ1. rewrite cache_addAll_run. cbn zeta.
    destruct (fetch_all P (map (ToString P) (map JStr CORE_URLS)));
      [destruct (batch_accepted P
                   (map (ToString P) (map JStr CORE_URLS)))|];
      cbn [snd log]; eexists; by rewrite <- ?app_assoc. }
  destruct (fetch_all P (precache_urls P manifest)) as [l|];
    [destruct (batch_accepted P (precache_urls P manifest))|].
  - exists [EvSkipWaiting]. cbn. by rewrite <- !app_assoc.
  - edestruct Hfallback as [rest ->]. exists rest. cbn [log].
    by rewrite <- !app_assoc.
  - edestruct Hfallback as [rest ->]. exists rest. cbn [log].
    by rewrite <- !app_assoc.
Qed.

(** When the cache refuses the bulk insert (a listed file that does not
    load, a batch it rejects), the [catch] inserts the core list. *)
Lemma precache_bulk_refused P cache σ p manifest :
  network P manifest_request = Some p → ok p = true →
  JSON_parse P (body p) = Some manifest →
  fresh_ids σ →
  (fetch_all P (precache_urls P manifest) = None ∨
   batch_accepted P (precache_urls P manifest) = false) →
  precacheFromManifest P cache σ =
    cache_addAll P cache (map JStr CORE_URLS)
      {| caches := caches σ; used := {[next σ]} ∪ used σ;
         next := S (next σ);
         log := log σ ++ [EvFetch manifest_request;
                          EvAddAll cache (precache_urls P manifest)] |}.
Proof.
  intros Hnet Hok Hparse Hσ Hrefused.
  erewrite precache_parsed by done.
  unfold try_catch. rewrite (cache_addAll_run _ _ (filter _ _)). cbn zeta.
  rewrite precache_urls_eq. cbn [caches used next log].
  destruct (fetch_all P (precache_urls P manifest)) as [l|];
    [destruct (batch_accepted P (precache_urls P manifest)) eqn:E|];
    rewrite <- ?app_assoc; try done.
  by destruct Hrefused.
Qed.

(** ** The identity invariant *)

(** Every handler keeps [fresh_ids], so the hypothesis of the theorems
    above holds in every state the worker reaches from [initial]. *)
Ltac by_cases Hσ :=
  repeat (case_match; simplify_eq;
          unfold consume, get, modify, mbind, mret, mthrow,
            Task_bind, Task_ret, Task_throw in *;
          cbn [fst snd caches used next log rid payload] in *);
  try (intros i Hi; cbn [used next] in *;
       try (apply elem_of_union in Hi as [Hi|Hi];
            [apply elem_of_singleton in Hi; lia|]);
       apply Hσ in Hi; lia).

Lemma onfetch_fresh_ids P request σ :
  fresh_ids σ → fresh_ids (onfetch P request σ).2.
Proof. intros Hσ. run. run. by_cases Hσ. Qed.

Lemma oninstall_fresh_ids P σ :
  fresh_ids σ → fresh_ids (oninstall P σ).2.
Proof. intros Hσ. run. run. by_cases Hσ. Qed.

Lemma onactivate_fresh_ids σ :
  fresh_ids σ → fresh_ids (onactivate σ).2.
Proof. intros Hσ. rewrite onactivate_run. intros i Hi. by apply Hσ. Qed.

(** A write the cache refuses does reject; it is [spawn] that keeps the
    rejection from the handler. *)
Lemma cache_put_refused P cache key r σ :
  rid r ∉ used σ → put_accepted P key (payload r) = false →
  (cache_put P cache key r σ).1 = Thrown StorageError.
Proof.
  intros Hr Hno. run. run. rewrite bool_decide_eq_false_2 by done. cbn.
  by rewrite Hno.
Qed.

(** The request list is built by concatenation: a manifest that lists a
    core path makes it occur twice in the list. *)
Example precache_urls_repeats :
  precache_urls online (JObj [("files", JObj [("index.html", JStr "/index.html")])])
  = [ "/"; "/index.html"; "/manifest.json"; "/favicon.ico";
      "/logo192.svg"; "/logo512.svg"; "/index.html" ].
Proof. reflexivity. Qed.

(** ** The claims *)

(** C1. The spec says that a manifest fetch that resolves with a
    non-success status makes the install phase fall back to the static
    core list, so that the store holds the six core paths. The code
    returns from [precacheFromManifest] at [if (!res.ok) return;], before
    any insert and outside the [catch]: with the manifest endpoint
    answering HTTP 500 on an otherwise working network, install completes
    and the store [hob-tools-v2] exists and is empty. *)
Theorem install_manifest_500_leaves_store_empty :
  oninstall manifest_500 initial =
    (Returned tt,
     {| caches := {[CACHE_NAME := ∅]}; used := ∅; next := 1;
        log := [EvOpen CACHE_NAME; EvFetch manifest_request;
                EvSkipWaiting] |}).
Proof. by erewrite oninstall_not_ok. Qed.



(** C3. A non-navigation GET request that is not in the store and whose
    fetch resolves is answered with the fetched response itself, its body
    unread. When that response has status 200 and type [basic], the
    handler issues exactly one [cache.put], of a clone (another object
    with the same payload); the store gains that one entry when the cache
    accepts the write and is unchanged when it does not. For any other
    status or type no write is issued and no store changes. *)
Theorem runtime_cache_stores_one_clone P request σ p :
  method request = "GET" → mode request ≠ "navigate" →
  entries CACHE_NAME σ !! url request = None →
  network P request = Some p →
  fresh_ids σ →
  let original := {| rid := next σ; payload := p |} in
  let σ' := (onfetch P request σ).2 in
  (onfetch P request σ).1 = Returned (RespondWith (Returned original)) ∧
  (rid original ∉ used σ') ∧
  (status p = 200%Z → type p = Basic →
     (∃ copy, rid copy ≠ rid original ∧ payload copy = p ∧
        log σ' = log σ ++ [EvOpen CACHE_NAME;
                           EvMatch CACHE_NAME (url request);
                           EvFetch request;
                           EvPut CACHE_NAME (url request) copy]) ∧
     entries CACHE_NAME σ' =
       (if put_accepted P (url request) p
        then <[url request := p]> (entries CACHE_NAME σ)
        else entries CACHE_NAME σ) ∧
     (∀ name, name ≠ CACHE_NAME → entries name σ' = entries name σ)) ∧
  (¬ (status p = 200%Z ∧ type p = Basic) →
     log σ' = log σ ++ [EvOpen CACHE_NAME;
                        EvMatch CACHE_NAME (url request);
                        EvFetch request] ∧
     (∀ name, entries name σ' = entries name σ)).
Proof.
  intros Hm Hn Hmiss Hnet Hσ original σ'. subst original σ'.
  rewrite (onfetch_miss_online P request σ p) by done.
  cbn [fst snd rid]. split; [done|].
  unfold cacheable. split_and!.
  - destruct (_ && _); cbn [used].
    + rewrite elem_of_union, elem_of_singleton.
      intros [?|Hin]; [lia|]. by apply (fresh_ids_next σ).
    + by apply fresh_ids_next.
  - intros H200 Hbasic.
    rewrite !bool_decide_eq_true_2 by done. cbn [andb].
    split_and!.
    + by exists {| rid := S (next σ); payload := p |}.
    + unfold entries. cbn [caches].
      destruct (put_accepted P (url request) p).
      * by rewrite lookup_insert_eq.
      * apply lookup_opened.
    + intros name Hname. unfold entries. cbn [caches].
      destruct (put_accepted P (url request) p).
      * rewrite lookup_insert_ne by done. apply lookup_opened.
      * apply lookup_opened.
  - intros Hno.
    assert (bool_decide (status p = 200%Z) && bool_decide (type p = Basic)
            = false) as ->.
    { apply andb_false_iff. rewrite !bool_decide_eq_false.
      destruct (decide (status p = 200%Z)); [right|left]; naive_solver. }
    split; [done|]. intros name. apply lookup_opened.
Qed.

Lemma runtime_cache_stores_one_clone_witness :
  (onfetch online (subresource "/static/main.abc123.js" "script") initial).1
  = Returned (RespondWith (Returned
      {| rid := 0;
         payload := {| status := 200; type := Basic;
                       body := "/static/main.abc123.js" |} |})).
Proof.
  refine (proj1
    (runtime_cache_stores_one_clone online
       (subresource "/static/main.abc123.js" "script") initial
       {| status := 200; type := Basic; body := "/static/main.abc123.js" |}
       _ _ _ _ _));
    first [ reflexivity | discriminate | apply fresh_ids_initial ].
Defined.

(** C4. A non-navigation GET request whose URL is in the current store is
    answered with the stored response. The handler opens the store and
    looks the request up, and nothing else: no fetch is made and the
    registry is unchanged. *)
Theorem cache_first_serves_stored_response P request σ p :
  method request = "GET" → mode request ≠ "navigate" →
  entries CACHE_NAME σ !! url request = Some p →
  onfetch P request σ =
    (Returned (RespondWith (Returned {| rid := next σ; payload := p |})),
     {| caches := caches σ; used := used σ; next := S (next σ);
        log := log σ ++ [EvOpen CACHE_NAME;
                         EvMatch CACHE_NAME (url request)] |}).
Proof. apply onfetch_hit. Qed.

Lemma cache_first_serves_stored_response_witness :
  onfetch offline (subresource "/index.html" "script") with_root =
    (Returned (RespondWith (Returned
       {| rid := 0; payload := root_document |})),
     {| caches := caches with_root; used := ∅; next := 1;
        log := [EvOpen CACHE_NAME; EvMatch CACHE_NAME "/index.html"] |}).
Proof.
  refine (cache_first_serves_stored_response offline
            (subresource "/index.html" "script") with_root root_document
            _ _ _);
    first [ reflexivity | discriminate ].
Defined.

(** C5. A navigation GET request is answered with the network response,
    whatever its status, when the fetch resolves; with the stored root
    document [/index.html] when the fetch rejects; and with
    [Response.error()] when the fetch rejects and the store has no root
    document. The task handed to [respondWith] never rejects. *)
Theorem navigation_network_first P request σ :
  method request = "GET" → mode request = "navigate" →
  (onfetch P request σ).1 =
    Returned (RespondWith (Returned
      {| rid := next σ;
         payload :=
           match network P request with
           | Some p => p
           | None =>
               match entries CACHE_NAME σ !! "/index.html" with
               | Some root => root
               | None => network_error
               end
           end |})).
Proof.
  intros Hm Hn. rewrite onfetch_navigate by done.
  destruct (network P request); [done|].
  by destruct (entries CACHE_NAME σ !! "/index.html").
Qed.

Lemma navigation_network_first_witness :
  (onfetch offline (navigation "/tools/dice") initial).1 =
    Returned (RespondWith (Returned
      {| rid := 0; payload := network_error |})).
Proof.
  refine (navigation_network_first offline (navigation "/tools/dice")
            initial _ _);
    reflexivity.
Defined.

(** C7. A non-navigation GET request that is not in the store and whose
    fetch rejects is answered, when its destination is [document], with
    the stored root document [/index.html], or with [Response.error()]
    when there is none; for any other destination it is answered with
    [Response.error()]. *)
Theorem runtime_fetch_failure_fallback P request σ :
  method request = "GET" → mode request ≠ "navigate" →
  entries CACHE_NAME σ !! url request = None →
  network P request = None →
  (onfetch P request σ).1 =
    Returned (RespondWith (Returned
      {| rid := next σ;
         payload :=
           if bool_decide (destination request = "document")
           then match entries CACHE_NAME σ !! "/index.html" with
                | Some root => root
                | None => network_error
                end
           else network_error |})).
Proof.
  intros Hm Hn Hmiss Hnet. rewrite onfetch_miss_offline by done.
  destruct (bool_decide (destination request = "document")); [|done].
  by destruct (entries CACHE_NAME σ !! "/index.html").
Qed.

Lemma runtime_fetch_failure_fallback_witness :
  (onfetch offline (subresource "/frame.html" "document") with_root).1 =
    Returned (RespondWith (Returned
      {| rid := 0; payload := root_document |})).
Proof.
  refine (runtime_fetch_failure_fallback offline
            (subresource "/frame.html" "document") with_root _ _ _ _);
    first [ reflexivity | discriminate ].
Defined.

(** C8. The handler leaves a request alone exactly when its method is
    not GET: it returns without calling [respondWith], and the state is
    the one it started from, so nothing was opened, looked up, fetched or
    written. A GET request always gets a [respondWith]. *)
Theorem only_get_is_intercepted P request σ :
  onfetch P request σ = (Returned PassThrough, σ) ↔ method request ≠ "GET".
Proof.
  split.
  - intros Hrun Hm. unfold onfetch, respondWith in Hrun.
    rewrite (bool_decide_eq_true_2 _ Hm) in Hrun. cbn [negb] in Hrun.
    destruct (bool_decide (mode request = "navigate"));
      match type of Hrun with (let '(_, _) := ?t in _) = _ =>
        destruct t end; discriminate.
  - intros Hm. unfold onfetch.
    by rewrite (bool_decide_eq_false_2 _ Hm).
Qed.

(** C6. Activation completes without error and leaves in the registry
    exactly the store named [CACHE_NAME], with the contents it had; every
    other store is deleted. A second activation right after the first
    completes without error, deletes nothing (it lists the stores and
    claims the clients) and leaves the registry as it is. With the stores
    [hob-tools-v0], [hob-tools-v1] and [hob-tools-v2] present, whatever
    they hold, only [hob-tools-v2] remains, with what it held. *)
Theorem activate_deletes_stale_stores σ :
  let σ1 := (onactivate σ).2 in
  let σ2 := (onactivate σ1).2 in
  (onactivate σ).1 = Returned tt ∧
  (∀ name, caches σ1 !! name =
             if bool_decide (name = CACHE_NAME) then caches σ !! name
             else None) ∧
  log σ1 = log σ ++ [EvKeys] ++
           map EvDelete (stale (names (caches σ))) ++ [EvClaim] ∧
  (onactivate σ1).1 = Returned tt ∧
  caches σ2 = caches σ1 ∧
  log σ2 = log σ1 ++ [EvKeys; EvClaim] ∧
  (∀ v0 v1 v2 : gmap string Payload,
     caches σ = {[ "hob-tools-v1" := v1; "hob-tools-v0" := v0;
                   "hob-tools-v2" := v2 ]} →
     caches σ1 = {[ "hob-tools-v2" := v2 ]}).
Proof.
  intros σ1 σ2. subst σ2 σ1. rewrite !onactivate_run.
  cbn [fst snd caches log].
  assert (∀ name,
    delete_all (stale (names (caches σ))) (caches σ) !! name =
      if bool_decide (name = CACHE_NAME) then caches σ !! name else None)
    as Hleft by apply lookup_activated.
  rewrite stale_activated. split_and!; try done.
  intros v0 v1 v2 Hσ. apply map_eq. intros name.
  rewrite Hleft, Hσ. case_bool_decide as Hname.
  - subst name. by vm_compute.
  - symmetry. by apply lookup_singleton_ne.
Qed.

(** C9. Handling a navigation request, of any method, issues no [put],
    no [addAll] and no [delete], and every store has the same entries
    afterwards. (The offline path opens the current store, which creates
    it, empty, when the registry does not have it; when it has, the
    registry is unchanged.) *)
Theorem navigation_never_writes P request σ :
  mode request = "navigate" →
  let σ' := (onfetch P request σ).2 in
  (∃ events, log σ' = log σ ++ events ∧ Forall reads_only events) ∧
  (∀ name, entries name σ' = entries name σ) ∧
  (is_Some (caches σ !! CACHE_NAME) → caches σ' = caches σ).
Proof.
  intros Hn σ'. subst σ'.
  destruct (decide (method request = "GET")) as [Hm|Hm]; cycle 1.
  { unfold onfetch. rewrite (bool_decide_eq_false_2 _ Hm). cbn.
    split_and!; [|done..]. exists []. by rewrite app_nil_r. }
  rewrite onfetch_navigate by done.
  destruct (network P request) as [p|]; cbn [snd log caches].
  - split_and!; [|done..]. eexists. split; [done|].
    by repeat constructor.
  - split_and!.
    + eexists. split; [done|]. by repeat constructor.
    + intros name. apply lookup_opened.
    + intros [c Hc]. by apply opened_present with c.
Qed.

Lemma navigation_never_writes_witness :
  entries CACHE_NAME
    (onfetch offline (navigation "/tools/dice") with_root).2 =
  entries CACHE_NAME with_root.
Proof.
  refine (proj1 (proj2
    (navigation_never_writes offline (navigation "/tools/dice") with_root
       _)) CACHE_NAME);
    reflexivity.
Defined.

(** C10. The runtime cache write is started and not awaited: on two
    platforms that differ only in whether the cache accepts a [put], the
    handler ends the same way and hands over the same response, and the
    two runs issue the same calls. A write the cache refuses changes
    neither the response nor whether there is one. *)
Theorem put_outcome_does_not_reach_response P verdict verdict' request σ :
  let run := onfetch (with_put_accepted P verdict) request σ in
  let run' := onfetch (with_put_accepted P verdict') request σ in
  run.1 = run'.1 ∧ log run.2 = log run'.2 ∧
  used run.2 = used run'.2 ∧ next run.2 = next run'.2.
Proof.
  intros run0 run0'. subst run0 run0'. run.
  destruct (bool_decide (method request = "GET")); cbn [negb]; [|done].
  destruct (bool_decide (mode request = "navigate")); [done|].
  cbn [fst snd network with_put_accepted].
  destruct (default ∅ (opened CACHE_NAME (caches σ) !! CACHE_NAME)
              !! url request); [done|].
  destruct (network P request) as [p|]; [|done].
  cbn [fst snd caches used next log rid payload].
  destruct (_ && _); [|done].
  cbn [fst snd caches used next log rid payload].
  destruct (bool_decide (next σ ∈ used σ)); [done|].
  cbn [fst snd caches used next log rid payload].
  run.
  destruct (bool_decide (S (next σ) ∈ used σ)); [done|].
  cbn [fst snd caches used next log rid payload put_accepted
       with_put_accepted].
  by destruct (verdict (url request) p), (verdict' (url request) p).
Qed.

(** * Further properties of the handlers *)

(** ** Installation: the fallback paths *)

Lemma core_keys P : map (ToString P) (map JStr CORE_URLS) = CORE_URLS.
Proof. reflexivity. Qed.

(** Install is: open the store, precache, and [skipWaiting] when the
    precache did not reject. *)
Lemma oninstall_unfold P σ :
  oninstall P σ =
    match precacheFromManifest P CACHE_NAME
            {| caches := opened CACHE_NAME (caches σ); used := used σ;
               next := next σ; log := log σ ++ [EvOpen CACHE_NAME] |} with
    | (Returned _, σ1) =>
        (Returned tt,
         {| caches := caches σ1; used := used σ1; next := next σ1;
            log := log σ1 ++ [EvSkipWaiting] |})
    | (Thrown e, σ1) => (Thrown e, σ1)
    end.
Proof. reflexivity. Qed.

(** The core-list insert, when the core URLs load and the cache takes
    them. *)
Lemma core_insert_accepted P cache σ l :
  fetch_all P CORE_URLS = Some l → batch_accepted P CORE_URLS = true →
  cache_addAll P cache (map JStr CORE_URLS) σ =
    (Returned tt,
     {| caches := <[cache := put_all l (entries cache σ)]> (caches σ);
        used := used σ; next := next σ;
        log := log σ ++ [EvAddAll cache CORE_URLS] |}).
Proof.
  intros Hall Hacc. rewrite cache_addAll_run. cbn zeta.
  by rewrite core_keys, Hall, Hacc.
Qed.

(** The core-list insert, when it is refused. *)
Lemma core_insert_refused P cache σ :
  (fetch_all P CORE_URLS = None ∨ batch_accepted P CORE_URLS = false) →
  ∃ e, cache_addAll P cache (map JStr CORE_URLS) σ =
    (Thrown e,
     {| caches := caches σ; used := used σ; next := next σ;
        log := log σ ++ [EvAddAll cache CORE_URLS] |}).
Proof.
  intros Hno. rewrite cache_addAll_run. cbn zeta. rewrite core_keys.
  destruct (fetch_all P CORE_URLS) as [l|]; [|by eexists].
  destruct (batch_accepted P CORE_URLS); [|by eexists].
  by destruct Hno.
Qed.

(** X1. When the manifest fetch rejects and the core URLs load, install
    completes: the store gains exactly the six core paths, in one bulk
    insert, and [skipWaiting] is called. *)
Theorem install_core_fallback_on_rejected_fetch P σ l :
  network P manifest_request = None →
  fetch_all P CORE_URLS = Some l → batch_accepted P CORE_URLS = true →
  (oninstall P σ).1 = Returned tt ∧
  log (oninstall P σ).2 =
    log σ ++ [EvOpen CACHE_NAME; EvFetch manifest_request;
              EvAddAll CACHE_NAME CORE_URLS; EvSkipWaiting] ∧
  dom (entries CACHE_NAME (oninstall P σ).2) =
    dom (entries CACHE_NAME σ) ∪ list_to_set CORE_URLS.
Proof.
  intros Hnet Hall Hacc. rewrite oninstall_unfold.
  rewrite precache_rejected by done.
  rewrite (core_insert_accepted P _ _ l) by done.
  cbn [fst snd log caches used next]. rewrite entries_insert.
  split_and!; [done|by rewrite <- !app_assoc|].
  rewrite dom_put_all, (fetch_all_keys _ _ _ Hall).
  unfold entries. cbn [caches]. by rewrite lookup_opened.
Qed.

Lemma install_core_fallback_on_rejected_fetch_witness :
  dom (entries CACHE_NAME (oninstall manifest_down initial).2) =
    dom (entries CACHE_NAME initial) ∪ list_to_set CORE_URLS.
Proof.
  refine (proj2 (proj2
    (install_core_fallback_on_rejected_fetch manifest_down initial
       (map (λ u, (u, {| status := 200; type := Basic; body := u |}))
            CORE_URLS) _ _ _)));
    reflexivity.
Defined.

(** A manifest that arrives with a body that does not parse: the
    [SyntaxError] of [res.json()] lands in the [catch]. *)
Lemma precache_unparsed P cache σ p :
  network P manifest_request = Some p → ok p = true →
  JSON_parse P (body p) = None →
  ∃ σ1,
    precacheFromManifest P cache σ =
      cache_addAll P cache (map JStr CORE_URLS) σ1 ∧
    caches σ1 = caches σ ∧
    log σ1 = log σ ++ [EvFetch manifest_request].
Proof.
  intros Hnet Hok Hparse.
  unfold precacheFromManifest, try_catch, fetch, Response_json, consume.
  unfold mbind, Task_bind, mret, Task_ret, mthrow, Task_throw.
  unfold emit, modify, get, alloc. fold manifest_request.
  rewrite Hnet. cbn [payload rid used next log caches]. rewrite Hok.
  cbn [negb payload rid used next log caches].
  destruct (bool_decide (next σ ∈ used σ));
    cbn [payload rid used next log caches]; rewrite ?Hparse;
    by eexists.
Qed.

(** X2. When the manifest arrives with a success status and a body that
    is not JSON, and the core URLs load, install completes: the store
    gains exactly the six core paths and [skipWaiting] is called. *)
Theorem install_core_fallback_on_parse_error P σ p l :
  network P manifest_request = Some p → ok p = true →
  JSON_parse P (body p) = None →
  fetch_all P CORE_URLS = Some l → batch_accepted P CORE_URLS = true →
  (oninstall P σ).1 = Returned tt ∧
  log (oninstall P σ).2 =
    log σ ++ [EvOpen CACHE_NAME; EvFetch manifest_request;
              EvAddAll CACHE_NAME CORE_URLS; EvSkipWaiting] ∧
  dom (entries CACHE_NAME (oninstall P σ).2) =
    dom (entries CACHE_NAME σ) ∪ list_to_set CORE_URLS.
Proof.
  intros Hnet Hok Hparse Hall Hacc. rewrite oninstall_unfold.
  edestruct (precache_unparsed P CACHE_NAME) as (σ1 & -> & Hcs & Hlog);
    [done..|].
  rewrite (core_insert_accepted P _ _ l) by done.
  cbn [fst snd log caches used next] in *. rewrite entries_insert.
  split_and!; [done|by rewrite Hlog, <- !app_assoc|].
  rewrite dom_put_all, (fetch_all_keys _ _ _ Hall).
  unfold entries. rewrite Hcs. by rewrite lookup_opened.
Qed.

Lemma install_core_fallback_on_parse_error_witness :
  dom (entries CACHE_NAME (oninstall manifest_garbled initial).2) =
    dom (entries CACHE_NAME initial) ∪ list_to_set CORE_URLS.
Proof.
  refine (proj2 (proj2
    (install_core_fallback_on_parse_error manifest_garbled initial
       {| status := 200; type := Basic; body := "/asset-manifest.json" |}
       (map (λ u, (u, {| status := 200; type := Basic; body := u |}))
            CORE_URLS) _ _ _ _ _)));
    reflexivity.
Defined.

(** X3. The [catch] also takes a bulk insert that fails. When the
    manifest parses but the insert of its list is refused (a listed file
    does not load, or the cache rejects the batch) and the core URLs
    load, install asks for the core list next and completes: the store
    gains the six core paths and none of the other listed files. *)
Theorem install_core_fallback_on_refused_insert P σ p manifest l :
  network P manifest_request = Some p → ok p = true →
  JSON_parse P (body p) = Some manifest →
  fresh_ids σ →
  (fetch_all P (precache_urls P manifest) = None ∨
   batch_accepted P (precache_urls P manifest) = false) →
  fetch_all P CORE_URLS = Some l → batch_accepted P CORE_URLS = true →
  (oninstall P σ).1 = Returned tt ∧
  log (oninstall P σ).2 =
    log σ ++ [EvOpen CACHE_NAME; EvFetch manifest_request;
              EvAddAll CACHE_NAME (precache_urls P manifest);
              EvAddAll CACHE_NAME CORE_URLS; EvSkipWaiting] ∧
  dom (entries CACHE_NAME (oninstall P σ).2) =
    dom (entries CACHE_NAME σ) ∪ list_to_set CORE_URLS.
Proof.
  intros Hnet Hok Hparse Hσ Hrefused Hall Hacc. rewrite oninstall_unfold.
  erewrite precache_bulk_refused; [|done..].
  rewrite (core_insert_accepted P _ _ l) by done.
  cbn [fst snd log caches used next]. rewrite entries_insert.
  split_and!; [done|by rewrite <- !app_assoc|].
  rewrite dom_put_all, (fetch_all_keys _ _ _ Hall).
  unfold entries. cbn [caches]. by rewrite lookup_opened.
Qed.

Lemma install_core_fallback_on_refused_insert_witness :
  dom (entries CACHE_NAME (oninstall listed_file_missing initial).2) =
    dom (entries CACHE_NAME initial) ∪ list_to_set CORE_URLS.
Proof.
  refine (proj2 (proj2
    (install_core_fallback_on_refused_insert listed_file_missing initial
       {| status := 200; type := Basic; body := "/asset-manifest.json" |}
       scenario_manifest
       (map (λ u, (u, {| status := 200; type := Basic; body := u |}))
            CORE_URLS) _ _ _ _ _ _ _)));
    first [ reflexivity | apply fresh_ids_initial | by left ].
Defined.

(** X5. Install rejects when the manifest fetch rejects and the core
    list cannot be inserted either (as when the worker is installed
    without a network): the rejection of the second [addAll] leaves
    [precacheFromManifest], [skipWaiting] is not called, and no store
    gains an entry. *)
Theorem install_rejects_when_fallback_fails P σ :
  network P manifest_request = None →
  (fetch_all P CORE_URLS = None ∨ batch_accepted P CORE_URLS = false) →
  ∃ e,
    oninstall P σ =
      (Thrown e,
       {| caches := opened CACHE_NAME (caches σ); used := used σ;
          next := next σ;
          log := log σ ++ [EvOpen CACHE_NAME; EvFetch manifest_request;
                           EvAddAll CACHE_NAME CORE_URLS] |}).
Proof.
  intros Hnet Hno. rewrite oninstall_unfold.
  rewrite precache_rejected by done.
  edestruct (core_insert_refused P CACHE_NAME) as [e ->]; [done|].
  exists e. cbn [caches used next log]. by rewrite <- !app_assoc.
Qed.

Lemma install_rejects_when_fallback_fails_witness :
  ∃ e,
    oninstall offline initial =
      (Thrown e,
       {| caches := opened CACHE_NAME (caches initial);
          used := used initial; next := next initial;
          log := log initial ++ [EvOpen CACHE_NAME;
                                 EvFetch manifest_request;
                                 EvAddAll CACHE_NAME CORE_URLS] |}).
Proof.
  refine (install_rejects_when_fallback_fails offline initial _ _);
    first [ reflexivity | by left ].
Defined.

(** ** Installation: what holds on every path *)

(** Whatever the manifest endpoint does, [precacheFromManifest] ends in
    one of three ways: without a write, with one accepted bulk insert,
    or with the rejection of the core-list insert. *)
Lemma precache_outcomes P cache σ :
  ∃ σ1 events,
    used σ ⊆ used σ1 ∧
    log σ1 = log σ ++ events ∧
    ((precacheFromManifest P cache σ = (Returned tt, σ1) ∧
      caches σ1 = caches σ) ∨
     (∃ keys l, fetch_all P keys = Some l ∧
        precacheFromManifest P cache σ =
          (Returned tt,
           {| caches := <[cache := put_all l (entries cache σ)]> (caches σ);
              used := used σ1; next := next σ1; log := log σ1 |})) ∨
     (∃ e, precacheFromManifest P cache σ = (Thrown e, σ1) ∧
        caches σ1 = caches σ ∧
        (fetch_all P CORE_URLS = None ∨
         batch_accepted P CORE_URLS = false))).
Proof.
  assert (∀ σ0 : State, ∃ σ1 events,
    used σ0 ⊆ used σ1 ∧ log σ1 = log σ0 ++ events ∧
    ((∃ keys l, fetch_all P keys = Some l ∧
        cache_addAll P cache (map JStr CORE_URLS) σ0 =
          (Returned tt,
           {| caches := <[cache := put_all l (entries cache σ0)]>
                          (caches σ0);
              used := used σ1; next := next σ1; log := log σ1 |})) ∨
     (∃ e, cache_addAll P cache (map JStr CORE_URLS) σ0 = (Thrown e, σ1) ∧
        caches σ1 = caches σ0 ∧
        (fetch_all P CORE_URLS = None ∨
         batch_accepted P CORE_URLS = false)))) as Hfallback.
  { intros σ0. rewrite cache_addAll_run. cbn zeta. rewrite core_keys.
    destruct (fetch_all P CORE_URLS) as [l|] eqn:Hall;
      [destruct (batch_accepted P CORE_URLS) eqn:Hacc|].
    - eexists {| caches := caches σ0; used := used σ0; next := next σ0;
                 log := log σ0 ++ [EvAddAll cache CORE_URLS] |}, _.
      split_and!; [done..|]. left. by exists CORE_URLS, l.
    - eexists _, _. split_and!; [| |right; eexists; split_and!; eauto];
        done.
    - eexists _, _. split_and!; [| |right; eexists; split_and!; eauto];
        done. }
  unfold precacheFromManifest, try_catch, fetch, Response_json, consume.
  unfold mbind, Task_bind, mret, Task_ret, mthrow, Task_throw.
  unfold emit, modify, get, alloc. fold manifest_request.
  pose proof (union_subseteq_r {[next σ]} (used σ)) as Hgrow.
  destruct (network P manifest_request) as [p|];
    cbn [payload rid used next log caches];
    [destruct (ok p); cbn [negb payload rid used next log caches];
     [destruct (bool_decide (next σ ∈ used σ));
      cbn [payload rid used next log caches];
      [|destruct (JSON_parse P (body p)) as [manifest|];
        [rewrite cache_addAll_run; cbn zeta;
         cbn [payload rid used next log caches];
         match goal with |- context [fetch_all P ?ks] =>
           destruct (fetch_all P ks) as [l|] eqn:Hall;
             [destruct (batch_accepted P ks)|] end|]]|]|].
  all: try match goal with
    | |- context [cache_addAll _ _ (map JStr CORE_URLS) ?s] =>
        destruct (Hfallback s) as (σ1 & events & Hu & Hl & H);
        cbn [used log caches] in *;
        exists σ1; eexists; split_and!;
          [by etrans|by rewrite Hl, <- ?app_assoc|];
        destruct H as [(keys & l' & ? & ->)|(e & -> & ? & ?)];
          [right; left|right; right]; by eauto 10
    end.
  - match goal with |- context [EvAddAll _ ?ks] =>
      exists {| caches := caches σ; used := {[next σ]} ∪ used σ;
                next := S (next σ);
                log := (log σ ++ [EvFetch manifest_request]) ++
                       [EvAddAll cache ks] |},
             [EvFetch manifest_request; EvAddAll cache ks] end.
    cbn [used log caches]. split_and!; [done|by rewrite <- app_assoc|].
    right; left. eauto 10.
  - eexists _, _. split_and!; [| |left; done]; done.
Qed.

(** X4. Install can only fail on the core list: when the core URLs load
    and the cache takes them, install completes and ends with
    [skipWaiting], whatever the manifest endpoint answers and whatever
    becomes of the manifest's own list. *)
Theorem install_completes_when_core_list_loads P σ l :
  fetch_all P CORE_URLS = Some l → batch_accepted P CORE_URLS = true →
  (oninstall P σ).1 = Returned tt ∧
  ∃ events, log (oninstall P σ).2 = log σ ++ events ++ [EvSkipWaiting].
Proof.
  intros Hall Hacc. rewrite oninstall_unfold.
  edestruct (precache_outcomes P CACHE_NAME) as
    (σ1 & events & _ & Hl & [[-> _]|[(keys & l' & _ & ->)|(e & _ & _ & H)]]).
  - cbn [fst snd log] in *. split; [done|].
    exists ([EvOpen CACHE_NAME] ++ events).
    by rewrite Hl, <- !app_assoc.
  - cbn [fst snd log] in *. split; [done|].
    exists ([EvOpen CACHE_NAME] ++ events).
    by rewrite Hl, <- !app_assoc.
  - destruct H; congruence.
Qed.

Lemma install_completes_when_core_list_loads_witness :
  (oninstall manifest_500 with_root).1 = Returned tt.
Proof.
  refine (proj1
    (install_completes_when_core_list_loads manifest_500 with_root
       (map (λ u, (u, {| status := 200; type := Basic; body := u |}))
            CORE_URLS) _ _));
    reflexivity.
Defined.

(** X6. Install only adds: on every path, and also when it rejects, the
    current store exists afterwards and has kept all its keys, every
    other store has the entries it had, and no body that was read
    becomes unread. *)
Theorem install_only_adds P σ :
  grows_only CACHE_NAME σ (oninstall P σ).2 ∧
  is_Some (caches (oninstall P σ).2 !! CACHE_NAME) ∧
  used σ ⊆ used (oninstall P σ).2.
Proof.
  assert (is_Some (opened CACHE_NAME (caches σ) !! CACHE_NAME)) as Hopen.
  { unfold opened. destruct (caches σ !! CACHE_NAME) eqn:E.
    - by rewrite E.
    - by rewrite lookup_insert_eq. }
  rewrite oninstall_unfold. unfold grows_only.
  edestruct (precache_outcomes P CACHE_NAME) as
    (σ1 & events & Hu & _ &
     [[-> Hcs]|[(keys & l & _ & ->)|(e & -> & Hcs & _)]]);
    cbn [fst snd caches used] in *; unfold entries; cbn [caches];
    rewrite ?Hcs.
  - split_and!; [intros; apply lookup_opened|by rewrite lookup_opened|
                 done..].
  - split_and!; [| |by rewrite lookup_insert_eq|done].
    + intros name Hname. rewrite lookup_insert_ne by done.
      apply lookup_opened.
    + rewrite lookup_insert_eq. cbn [default from_option id].
      rewrite dom_put_all, lookup_opened. apply union_subseteq_l.
  - split_and!; [intros; apply lookup_opened|by rewrite lookup_opened|
                 done..].
Qed.

(** ** Installation: what the bulk insert holds *)

Lemma nonempty_strings P paths :
  map (ToString P) (filter (λ v, ToBoolean v = true) (map JStr paths)) =
  filter (λ s, s ≠ "") paths.
Proof.
  induction paths as [|s paths IH]; [done|].
  cbn [map]. rewrite !filter_cons. cbn [ToBoolean].
  destruct (decide (s = "")) as [->|Hs].
  - rewrite bool_decide_eq_true_2 by done. cbn [negb].
    rewrite decide_False by done. rewrite decide_False by (by intros ?).
    done.
  - rewrite bool_decide_eq_false_2 by done. cbn [negb].
    rewrite !decide_True by done. cbn [map ToString]. by rewrite IH.
Qed.

(** X7. A manifest whose [files] field is an object with string values
    makes install ask for the core list followed by those values in the
    order of the object, the empty ones left out and repeated ones
    kept. *)
Theorem install_asks_for_listed_strings_in_order P σ p manifest props paths :
  network P manifest_request = Some p → ok p = true →
  JSON_parse P (body p) = Some manifest →
  fresh_ids σ →
  get_prop manifest "files" = Some (JObj props) →
  map snd props = map JStr paths →
  ∃ rest,
    log (oninstall P σ).2 =
      log σ ++ [EvOpen CACHE_NAME; EvFetch manifest_request;
                EvAddAll CACHE_NAME
                  (CORE_URLS ++ filter (λ s, s ≠ "") paths)] ++ rest.
Proof.
  intros Hnet Hok Hparse Hσ Hfiles Hvalues.
  destruct (oninstall_asks_bulk_insert P σ p manifest) as [rest Hlog];
    [done..|].
  exists rest. rewrite Hlog. unfold precache_urls, listed_files.
  rewrite Hfiles. cbn [Object_values]. by rewrite Hvalues, nonempty_strings.
Qed.

Lemma install_asks_for_listed_strings_in_order_witness :
  ∃ rest,
    log (oninstall online initial).2 =
      log initial ++ [EvOpen CACHE_NAME; EvFetch manifest_request;
                      EvAddAll CACHE_NAME
                        (CORE_URLS ++
                         filter (λ s, s ≠ "") ["/static/main.abc123.js"])]
                  ++ rest.
Proof.
  refine (install_asks_for_listed_strings_in_order online initial
            {| status := 200; type := Basic;
               body := "/asset-manifest.json" |}
            scenario_manifest
            [("main.js", JStr "/static/main.abc123.js")]
            ["/static/main.abc123.js"] _ _ _ _ _ _);
    first [ reflexivity | apply fresh_ids_initial ].
Defined.

(** X8. A manifest that parses to a value without a usable [files]
    field ([null], a number, a string, an array, an object that has no
    [files] or has it [null], [false], [0] or empty) is not an error:
    install asks for the core list alone, in the [try], and no second
    insert follows when the cache takes it. *)
Theorem install_without_files_field_inserts_core P σ p manifest l :
  network P manifest_request = Some p → ok p = true →
  JSON_parse P (body p) = Some manifest →
  fresh_ids σ →
  truthy (get_prop manifest "files") = false →
  fetch_all P CORE_URLS = Some l → batch_accepted P CORE_URLS = true →
  (oninstall P σ).1 = Returned tt ∧
  log (oninstall P σ).2 =
    log σ ++ [EvOpen CACHE_NAME; EvFetch manifest_request;
              EvAddAll CACHE_NAME CORE_URLS; EvSkipWaiting] ∧
  dom (entries CACHE_NAME (oninstall P σ).2) =
    dom (entries CACHE_NAME σ) ∪ list_to_set CORE_URLS.
Proof.
  intros Hnet Hok Hparse Hσ Hfiles Hall Hacc.
  assert (precache_urls P manifest = CORE_URLS) as Hurls.
  { unfold precache_urls, listed_files.
    destruct (get_prop manifest "files") as [fs|]; cbn in Hfiles.
    - rewrite Object_values_falsy by done. apply app_nil_r.
    - apply app_nil_r. }
  rewrite (oninstall_manifest P σ p manifest l)
    by (rewrite ?Hurls; done).
  cbn [fst snd log]. rewrite entries_insert, Hurls.
  split_and!; [done..|].
  by rewrite dom_put_all, (fetch_all_keys _ _ _ Hall).
Qed.

Lemma install_without_files_field_inserts_core_witness :
  log (oninstall
         {| network := network online; JSON_parse := λ _, Some JNull;
            Number_toString := Number_toString online;
            put_accepted := put_accepted online;
            batch_accepted := batch_accepted online |} initial).2 =
    log initial ++ [EvOpen CACHE_NAME; EvFetch manifest_request;
                    EvAddAll CACHE_NAME CORE_URLS; EvSkipWaiting].
Proof.
  refine (proj1 (proj2
    (install_without_files_field_inserts_core _ initial
       {| status := 200; type := Basic; body := "/asset-manifest.json" |}
       JNull
       (map (λ u, (u, {| status := 200; type := Basic; body := u |}))
            CORE_URLS) _ _ _ _ _ _ _)));
    first [ reflexivity | apply fresh_ids_initial ].
Defined.

Lemma lookup_put_all_other l (m : gmap string Payload) k :
  k ∉ l.*1 → put_all l m !! k = m !! k.
Proof.
  revert m. induction l as [|[k' p] l IH]; intros m Hk; [done|].
  change (put_all ((k', p) :: l) m) with (put_all l (<[k' := p]> m)).
  cbn in Hk. apply not_elem_of_cons in Hk as [Hne Hk].
  rewrite IH by done. by rewrite lookup_insert_ne.
Qed.

Lemma lookup_put_all_fetched P keys l (m : gmap string Payload) k :
  fetch_all P keys = Some l → k ∈ keys →
  put_all l m !! k = network P (request_of k "default").
Proof.
  revert l m. induction keys as [|k' keys IH]; intros l m Hall Hk.
  - by apply elem_of_nil in Hk.
  - cbn in Hall.
    destruct (network P (request_of k' "default")) as [p|] eqn:Hnet;
      [|done].
    destruct (ok p); [|done].
    destruct (fetch_all P keys) as [l'|] eqn:Hall'; [|done].
    injection Hall as <-.
    change (put_all ((k', p) :: l') m) with (put_all l' (<[k' := p]> m)).
    destruct (decide (k ∈ keys)) as [Hin|Hout].
    + by apply IH.
    + apply elem_of_cons in Hk as [->|?]; [|done].
      rewrite lookup_put_all_other
        by (by rewrite (fetch_all_keys _ _ _ Hall')).
      by rewrite lookup_insert_eq.
Qed.

Lemma fresh_ids_with_root : fresh_ids with_root.
Proof. intros i Hi. cbn in Hi. by apply not_elem_of_empty in Hi. Qed.

(** X9. After a bulk insert that the cache carried out, the store holds
    under every URL of the insert the response the network gave for it
    during install, replacing what was stored there, and holds under
    every other URL what it held before. *)
Theorem install_stores_network_answers P σ p manifest l u :
  network P manifest_request = Some p → ok p = true →
  JSON_parse P (body p) = Some manifest →
  fresh_ids σ →
  fetch_all P (precache_urls P manifest) = Some l →
  batch_accepted P (precache_urls P manifest) = true →
  entries CACHE_NAME (oninstall P σ).2 !! u =
    if bool_decide (u ∈ precache_urls P manifest)
    then network P (request_of u "default")
    else entries CACHE_NAME σ !! u.
Proof.
  intros Hnet Hok Hparse Hσ Hall Hacc.
  rewrite (oninstall_manifest P σ p manifest l) by done.
  cbn [snd]. rewrite entries_insert. case_bool_decide as Hu.
  - by apply (lookup_put_all_fetched P (precache_urls P manifest)).
  - apply lookup_put_all_other. by rewrite (fetch_all_keys _ _ _ Hall).
Qed.

Lemma install_stores_network_answers_witness :
  entries CACHE_NAME (oninstall online with_root).2 !! "/index.html" =
    if bool_decide ("/index.html" ∈ precache_urls online scenario_manifest)
    then network online (request_of "/index.html" "default")
    else entries CACHE_NAME with_root !! "/index.html".
Proof.
  refine (install_stores_network_answers online with_root
            {| status := 200; type := Basic;
               body := "/asset-manifest.json" |}
            scenario_manifest _ "/index.html" _ _ _ _ _ _);
    first [ reflexivity | apply fresh_ids_with_root ].
Defined.

(** ** Activation *)

Lemma entries_activated name σ :
  entries name (onactivate σ).2 =
    if bool_decide (name = CACHE_NAME) then entries name σ else ∅.
Proof.
  rewrite onactivate_run. unfold entries. cbn [snd caches].
  rewrite lookup_activated. by case_bool_decide.
Qed.

(** X10. Activation issues one [caches.delete] for each store whose name
    differs from [CACHE_NAME], no store twice and none for
    [CACHE_NAME], between listing the stores and claiming the clients;
    it makes no other call and reads no body. *)
Theorem activate_deletes_each_stale_store_once σ :
  ∃ deleted,
    log (onactivate σ).2 =
      log σ ++ [EvKeys] ++ map EvDelete deleted ++ [EvClaim] ∧
    NoDup deleted ∧
    (∀ name, name ∈ deleted ↔
               name ≠ CACHE_NAME ∧ is_Some (caches σ !! name)) ∧
    used (onactivate σ).2 = used σ ∧
    next (onactivate σ).2 = next σ.
Proof.
  exists (stale (names (caches σ))). rewrite onactivate_run.
  cbn [snd log used next]. split_and!; try done.
  - apply NoDup_filter, NoDup_fst_map_to_list.
  - intros name. by rewrite elem_of_stale, elem_of_names.
Qed.

(** ** The life cycle *)

(** X11. Install, activate, then lose the network: a navigation to any
    page is answered with the copy of [/index.html] that install stored,
    stale stores or not. *)
Theorem offline_navigation_after_install P P' σ p manifest l index request :
  network P manifest_request = Some p → ok p = true →
  JSON_parse P (body p) = Some manifest →
  fresh_ids σ →
  fetch_all P (precache_urls P manifest) = Some l →
  batch_accepted P (precache_urls P manifest) = true →
  network P (request_of "/index.html" "default") = Some index →
  method request = "GET" → mode request = "navigate" →
  network P' request = None →
  let σ' := (onactivate (oninstall P σ).2).2 in
  (onfetch P' request σ').1 =
    Returned (RespondWith (Returned {| rid := next σ'; payload := index |})).
Proof.
  intros Hnet Hok Hparse Hσ Hall Hacc Hindex Hm Hn Hoff σ'. subst σ'.
  rewrite onfetch_navigate by done. rewrite Hoff. cbn [fst].
  rewrite entries_activated, bool_decide_eq_true_2 by done.
  rewrite (oninstall_manifest P σ p manifest l) by done.
  cbn [snd]. rewrite entries_insert.
  rewrite (lookup_put_all_fetched P (precache_urls P manifest))
    by (try done; apply elem_of_precache_urls; left;
        by apply list_elem_of_In; vm_compute; auto).
  by rewrite Hindex.
Qed.

Lemma offline_navigation_after_install_witness :
  (onfetch offline (navigation "/tools/dice")
     (onactivate (oninstall online three_generations).2).2).1 =
    Returned (RespondWith (Returned
      {| rid := next (onactivate (oninstall online three_generations).2).2;
         payload := {| status := 200; type := Basic;
                       body := "/index.html" |} |})).
Proof.
  refine (offline_navigation_after_install online offline
            three_generations
            {| status := 200; type := Basic;
               body := "/asset-manifest.json" |}
            scenario_manifest _ _ (navigation "/tools/dice")
            _ _ _ _ _ _ _ _ _ _);
    first [ reflexivity | by intros i Hi; apply not_elem_of_empty in Hi ].
Defined.

(** ** The fetch handler: what holds on every path *)

(** Runs the handler on every path at once. *)
Ltac all_paths :=
  run; run;
  repeat (case_match; simplify_eq;
          unfold consume, get, modify, mbind, mret, mthrow,
            Task_bind, Task_ret, Task_throw in *;
          cbn [fst snd caches used next log rid payload] in *).






(** X14. What the runtime cache stored it serves: after a miss whose
    status-200 [basic] response the cache accepted, the same request is
    answered from the store with that payload, on any platform (also
    without a network) and without a fetch. *)
Theorem runtime_cached_response_is_served_next P P' request σ p :
  method request = "GET" → mode request ≠ "navigate" →
  entries CACHE_NAME σ !! url request = None →
  network P request = Some p →
  fresh_ids σ →
  status p = 200%Z → type p = Basic →
  put_accepted P (url request) p = true →
  let σ' := (onfetch P request σ).2 in
  onfetch P' request σ' =
    (Returned (RespondWith (Returned {| rid := next σ'; payload := p |})),
     {| caches := caches σ'; used := used σ'; next := S (next σ');
        log := log σ' ++ [EvOpen CACHE_NAME;
                          EvMatch CACHE_NAME (url request)] |}).
Proof.
  intros Hm Hn Hmiss Hnet Hσ H200 Hbasic Hput σ'. subst σ'.
  apply onfetch_hit; [done..|].
  rewrite (onfetch_miss_online P request σ p) by done.
  unfold cacheable. rewrite !bool_decide_eq_true_2 by done.
  cbn [andb snd]. rewrite Hput, entries_insert.
  apply lookup_insert_eq.
Qed.

Lemma runtime_cached_response_is_served_next_witness :
  (onfetch offline (subresource "/static/main.abc123.js" "script")
     (onfetch online (subresource "/static/main.abc123.js" "script")
        initial).2).1 =
    Returned (RespondWith (Returned
      {| rid := 2;
         payload := {| status := 200; type := Basic;
                       body := "/static/main.abc123.js" |} |})).
Proof.
  refine (f_equal fst
    (runtime_cached_response_is_served_next online offline
       (subresource "/static/main.abc123.js" "script") initial
       {| status := 200; type := Basic; body := "/static/main.abc123.js" |}
       _ _ _ _ _ _ _ _));
    first [ reflexivity | discriminate | apply fresh_ids_initial ].
Defined.

(** X15. A response that is not status-200 [basic] (an opaque
    cross-origin answer, a 404, a redirect page) is handed over and
    forgotten: the same request asked again goes to the network again,
    with the same three calls. *)
Theorem uncacheable_response_is_fetched_again P request σ p :
  method request = "GET" → mode request ≠ "navigate" →
  entries CACHE_NAME σ !! url request = None →
  network P request = Some p →
  fresh_ids σ →
  ¬ (status p = 200%Z ∧ type p = Basic) →
  let σ' := (onfetch P request σ).2 in
  (onfetch P request σ').1 =
    Returned (RespondWith (Returned {| rid := next σ'; payload := p |})) ∧
  log (onfetch P request σ').2 =
    log σ' ++ [EvOpen CACHE_NAME; EvMatch CACHE_NAME (url request);
               EvFetch request].
Proof.
  intros Hm Hn Hmiss Hnet Hσ Hno σ'.
  assert (cacheable p = false) as Hp.
  { unfold cacheable. apply andb_false_iff. rewrite !bool_decide_eq_false.
    destruct (decide (status p = 200%Z)); [right|left]; naive_solver. }
  assert (fresh_ids σ') as Hσ' by by apply onfetch_fresh_ids.
  assert (entries CACHE_NAME σ' !! url request = None) as Hmiss'.
  { subst σ'. rewrite (onfetch_miss_online P request σ p) by done.
    rewrite Hp. unfold entries in *. cbn [snd caches].
    by rewrite lookup_opened. }
  rewrite (onfetch_miss_online P request σ' p) by done.
  by rewrite Hp.
Qed.

Lemma uncacheable_response_is_fetched_again_witness :
  log (onfetch cross_origin (subresource "/api/data" "")
         (onfetch cross_origin (subresource "/api/data" "") initial).2).2 =
    log (onfetch cross_origin (subresource "/api/data" "") initial).2 ++
      [EvOpen CACHE_NAME; EvMatch CACHE_NAME "/api/data";
       EvFetch (subresource "/api/data" "")].
Proof.
  refine (proj2
    (uncacheable_response_is_fetched_again cross_origin
       (subresource "/api/data" "") initial
       {| status := 0; type := Opaque; body := "" |} _ _ _ _ _ _));
    first [ reflexivity | discriminate | apply fresh_ids_initial
          | by intros [? _] ].
Defined.

(** X16. The response the page gets is always handed over with its body
    unread, on every path: from the network, from the store, or
    [Response.error()]. (The body the cache reads for a runtime write is
    the clone's.) *)
Theorem delivered_response_is_unread P request σ r :
  fresh_ids σ →
  (onfetch P request σ).1 = Returned (RespondWith (Returned r)) →
  (rid r ∉ used (onfetch P request σ).2) ∧
  rid r < next (onfetch P request σ).2.
Proof.
  intros Hσ. pose proof (fresh_ids_next σ Hσ) as Hnext.
  assert (S (next σ) ∉ used σ) as Hnext'
    by (intros Hin; apply Hσ in Hin; lia).
  all_paths; intros [= <-]; cbn [rid]; (split; [|lia]); try done.
  all: rewrite elem_of_union, elem_of_singleton; intros [?|?];
    [lia|done].
Qed.

Lemma delivered_response_is_unread_witness :
  rid {| rid := 0;
         payload := {| status := 200; type := Basic;
                       body := "/static/main.abc123.js" |} |}
    ∉ used (onfetch online (subresource "/static/main.abc123.js" "script")
              initial).2.
Proof.
  refine (proj1
    (delivered_response_is_unread online
       (subresource "/static/main.abc123.js" "script") initial _ _ _));
    first [ reflexivity | apply fresh_ids_initial ].
Defined.

(** X17. For one intercepted request the handler makes at most one
    fetch, of that request, and at most one cache write, under that
    request; every call goes to the current store, and it never lists or
    deletes stores. *)
Theorem fetch_handler_calls P request σ :
  ∃ events,
    log (onfetch P request σ).2 = log σ ++ events ∧
    Forall (call_for request) events ∧
    fetches events ≤ 1 ∧ writes events ≤ 1.
Proof.
  all_paths; rewrite <- ?app_assoc;
    (eexists; split;
      [first [ reflexivity | symmetry; apply app_nil_r ]|]);
    (split; [repeat (constructor; [cbn; auto|]); constructor
            |vm_compute; lia]).
Qed.
